(** * Departmental record keeping: handlers of [main.py] over the tables of [models.py]

    The development embeds the request handlers and the seeding routine of
    [main.py] as programs of a small state-and-exception monad.  The state
    holds what the Python code reaches through [db] and [request.session]:
    the committed tables, the objects added to the SQLAlchemy session and not
    yet committed, the session dictionary of the request, and a trace of the
    operations issued against the persistence layer. *)

From stdpp Require Import base numbers list strings gmap sorting pretty.

Open Scope string_scope.
Open Scope list_scope.
Open Scope Z_scope.

(** ** models.py *)

(** Integer columns are [Z]; [Date] columns are [Z] as well, the proleptic
    ordinal of the day, so that [date - timedelta(days=k)] is a subtraction.
    Every row the application writes sets all its columns, so columns are
    not modelled as nullable. *)

Module User.
Record t := mk
  { id : Z; username : string; hashed_password : string;
    full_name : string; role : string }.
End User.

Module Meeting.
Record t := mk { id : Z; title : string; date : Z; meeting_type : string }.
End Meeting.

Module Attendance.
Record t := mk { id : Z; meeting_id : Z; user_id : Z; status : string }.
End Attendance.

Module ClinicSlot.
Record t := mk
  { id : Z; day_of_week : string; start_time : string;
    end_time : string; user_id : Z }.
End ClinicSlot.

Module ServiceEntry.
Record t := mk
  { id : Z; date : Z; procedure_name : string; user_id : Z; notes : string }.
End ServiceEntry.

Module ResearchItem.
Record t := mk
  { id : Z; title : string; research_type : string;
    status : string; user_id : Z }.
End ResearchItem.

(** ** The persistence layer *)

Module Db.

(** The committed content of the six tables, each in insertion order. *)
Record Store := mkStore
  { users : list User.t;
    meetings : list Meeting.t;
    attendance : list Attendance.t;
    clinic_slots : list ClinicSlot.t;
    service_entries : list ServiceEntry.t;
    research_items : list ResearchItem.t }.

Definition empty : Store := mkStore [] [] [] [] [] [].

Inductive Table :=
  TUser | TMeeting | TAttendance | TClinicSlot | TServiceEntry | TResearchItem.

#[global] Instance Table_eq_dec : EqDecision Table.
Proof. solve_decision. Defined.

(** An object handed to [db.add]. *)
Inductive Row :=
| RUser (u : User.t)
| RMeeting (m : Meeting.t)
| RAttendance (a : Attendance.t)
| RClinicSlot (c : ClinicSlot.t)
| RServiceEntry (e : ServiceEntry.t)
| RResearchItem (r : ResearchItem.t).

Definition table_of (r : Row) : Table :=
  match r with
  | RUser _ => TUser
  | RMeeting _ => TMeeting
  | RAttendance _ => TAttendance
  | RClinicSlot _ => TClinicSlot
  | RServiceEntry _ => TServiceEntry
  | RResearchItem _ => TResearchItem
  end.

(** What the handlers issue against the session. *)
Inductive Op :=
| Query (t : Table)
| Add (t : Table)
| Commit.

Definition ids (t : Table) (s : Store) : list Z :=
  match t with
  | TUser => User.id <$> users s
  | TMeeting => Meeting.id <$> meetings s
  | TAttendance => Attendance.id <$> attendance s
  | TClinicSlot => ClinicSlot.id <$> clinic_slots s
  | TServiceEntry => ServiceEntry.id <$> service_entries s
  | TResearchItem => ResearchItem.id <$> research_items s
  end.

(** Integer primary keys are handed out past the largest key in use, as
    SQLite does for an [INTEGER PRIMARY KEY]; the engine itself is chosen in
    [database.py]. *)
Definition next_id (used : list Z) : Z := 1 + foldr Z.max 0 used.

(** One INSERT.  [username] is declared [unique=True]: inserting a name
    that is already stored is refused. *)
Definition insert (s : Store) (r : Row) : option Store :=
  match r with
  | RUser u =>
      if decide (User.username u ∈ User.username <$> users s) then None
      else Some (mkStore (users s ++ [u]) (meetings s) (attendance s)
                   (clinic_slots s) (service_entries s) (research_items s))
  | RMeeting m =>
      Some (mkStore (users s) (meetings s ++ [m]) (attendance s)
              (clinic_slots s) (service_entries s) (research_items s))
  | RAttendance a =>
      Some (mkStore (users s) (meetings s) (attendance s ++ [a])
              (clinic_slots s) (service_entries s) (research_items s))
  | RClinicSlot c =>
      Some (mkStore (users s) (meetings s) (attendance s)
              (clinic_slots s ++ [c]) (service_entries s) (research_items s))
  | RServiceEntry e =>
      Some (mkStore (users s) (meetings s) (attendance s)
              (clinic_slots s) (service_entries s ++ [e]) (research_items s))
  | RResearchItem i =>
      Some (mkStore (users s) (meetings s) (attendance s)
              (clinic_slots s) (service_entries s) (research_items s ++ [i]))
  end.

(** The flush of a commit: the pending objects are inserted in the order
    they were added; one refused insert fails the whole transaction. *)
Fixpoint flush (s : Store) (rows : list Row) : option Store :=
  match rows with
  | [] => Some s
  | r :: rows' =>
      match insert s r with
      | Some s' => flush s' rows'
      | None => None
      end
  end.

End Db.

(** ** Program state, results and the monad *)

(** The exceptions that reach a handler: Python's [IndexError], SQLAlchemy's
    [IntegrityError], and passlib's [PasswordValueError] (a password it
    refuses to process, such as one holding a NUL byte) and
    [UnknownHashError] (a stored hash of no known scheme). *)
Inductive Exn :=
  IndexError | IntegrityError | PasswordValueError | UnknownHashError.

Inductive Result (A : Type) :=
| Ok (a : A)
| Raise (e : Exn).
Arguments Ok {A} a.
Arguments Raise {A} e.

(** [db] is the committed store, [new] the objects added to the SQLAlchemy
    session since its last commit, [session] is [request.session], [trace]
    the operations issued so far and [draws] the number of values taken from
    the random generator. *)
Record State := mkState
  { db : Db.Store;
    new : list Db.Row;
    session : gmap string string;
    trace : list Db.Op;
    draws : nat }.

Definition M (A : Type) : Type := State → Result A * State.

#[global] Instance M_ret : MRet M := λ A a st, (Ok a, st).

#[global] Instance M_bind : MBind M := λ A B k m st,
  match m st with
  | (Ok a, st') => k a st'
  | (Raise e, st') => (Raise e, st')
  end.

Definition raise {A} (e : Exn) : M A := λ st, (Raise e, st).

(** A call that reaches neither the session nor the store and either
    returns or raises. *)
Definition call {A} (r : Result A) : M A := λ st, (r, st).

(** [for x in xs: body(x)] *)
Fixpoint for_each {A} (xs : list A) (body : A → M unit) : M unit :=
  match xs with
  | [] => mret tt
  | x :: xs' => body x ;; for_each xs' body
  end.

(** A list built by appending one object per iteration. *)
Fixpoint collect {A B} (xs : list A) (body : A → M B) : M (list B) :=
  match xs with
  | [] => mret []
  | x :: xs' => y ← body x; ys ← collect xs' body; mret (y :: ys)
  end.

(** [xs[i]] for a non-negative index. *)
Definition getitem {A} (xs : list A) (i : Z) : M A :=
  match xs !! Z.to_nat i with
  | Some x => mret x
  | None => raise IndexError
  end.

(** [range(n)] *)
Definition range (n : nat) : list Z := Z.of_nat <$> seq 0 n.

(** *** Operations on the SQLAlchemy session *)

Definition record (op : Db.Op) : M unit :=
  λ st, (Ok tt, mkState (db st) (new st) (session st) (trace st ++ [op]) (draws st)).

(** [db.query(models.X)]: the committed rows of a table.  No handler
    queries between an [add] and its [commit], so pending objects never
    take part in a query. *)
Definition query {A} (t : Db.Table) (tbl : Db.Store → list A) : M (list A) :=
  record (Db.Query t) ;; (λ st, (Ok (tbl (db st)), st)) : M (list A).

(** The key a new object of table [t] receives when the session is
    flushed: keys are consecutive past the largest one stored, in the order
    the objects were added. *)
Definition fresh_id (t : Db.Table) (st : State) : Z :=
  Db.next_id (Db.ids t (db st))
  + Z.of_nat (length (filter (λ r, Db.table_of r = t) (new st))).

(** [db.add(obj)]: [mk] is the object still lacking its primary key; the
    object is returned as it reads once committed. *)
Definition add {A} (t : Db.Table) (wrap : A → Db.Row) (mk : Z → A) : M A :=
  record (Db.Add t) ;;
  ((λ st, let obj := mk (fresh_id t st) in
          (Ok obj, mkState (db st) (new st ++ [wrap obj]) (session st)
                     (trace st) (draws st))) : M A).

(** [db.commit()]: flush the pending objects; a refused insert rolls the
    transaction back and raises. *)
Definition commit : M unit :=
  record Db.Commit ;;
  ((λ st, match Db.flush (db st) (new st) with
          | Some s' => (Ok tt, mkState s' [] (session st) (trace st) (draws st))
          | None => (Raise IntegrityError,
                     mkState (db st) [] (session st) (trace st) (draws st))
          end) : M unit).

(** *** request.session *)

Definition session_get (key : string) : M (option string) :=
  λ st, (Ok (session st !! key), st).

Definition session_set (key value : string) : M unit :=
  λ st, (Ok tt, mkState (db st) (new st) (<[key := value]> (session st))
                 (trace st) (draws st)).

Definition session_pop (key : string) : M unit :=
  λ st, (Ok tt, mkState (db st) (new st) (delete key (session st))
                 (trace st) (draws st)).

(** [db.add_all(objs)] *)
Definition add_all {A} (t : Db.Table) (wrap : A → Db.Row) (mks : list (Z → A))
  : M (list A) :=
  collect mks (add t wrap).

(** [.order_by(models.ServiceEntry.date.desc())]: the rows by descending
    date.  SQL leaves the order among rows of one date open; here such rows
    keep the order of the table. *)
Fixpoint insert_date_desc (e : ServiceEntry.t) (l : list ServiceEntry.t)
  : list ServiceEntry.t :=
  match l with
  | [] => [e]
  | x :: l' =>
      if decide (ServiceEntry.date x ≤ ServiceEntry.date e) then e :: x :: l'
      else x :: insert_date_desc e l'
  end.

Definition order_by_date_desc (l : list ServiceEntry.t) : list ServiceEntry.t :=
  foldr insert_date_desc [] l.

(** What every database may answer to that ORDER BY: the rows of the table,
    in some order in which dates never increase. *)
Definition date_desc : relation ServiceEntry.t :=
  λ a b, ServiceEntry.date b ≤ ServiceEntry.date a.

Definition date_desc_listing (tbl out : list ServiceEntry.t) : Prop :=
  out ≡ₚ tbl ∧ Sorted date_desc out.

(** ** main.py *)

(** Values placed in a template context, and the responses of the routes.
    The [request] entry of every context is left out. *)
Inductive Value :=
| VStr (s : string)
| VUser (u : User.t)
| VStats (stats : list (string * Z))
| VAttendance (rows : list Attendance.t)
| VSlots (rows : list ClinicSlot.t)
| VEntries (rows : list ServiceEntry.t)
| VItems (rows : list ResearchItem.t).

Inductive Response :=
| RedirectResponse (url : string) (status_code : Z)
| TemplateResponse (name : string) (context : list (string * Value))
| JSONResponse (body : list (string * string)).

(** [RedirectResponse(url=...)] without a status code is a 307. *)
Definition redirect (url : string) : Response := RedirectResponse url 307.
Definition HTTP_303_SEE_OTHER : Z := 303.

Section Main.

(** passlib's bcrypt context, and the stream of values the random
    generator yields.  bcrypt salts every hash anew:
    [get_password_hash k password] is what the call numbered [k] of a run
    returns, and two calls on one password need not agree.
    [verify_password] returns whether the password matches the hash, or
    raises. *)
Variable get_password_hash : nat → string → string.
Variable verify_password : string → string → Result bool.
Variable rand : nat → nat.

(** [random.choice(xs)]: an element at a drawn position of a non-empty
    sequence; an empty one raises. *)
Definition random_choice (xs : list string) : M string :=
  match xs with
  | [] => raise IndexError
  | x :: _ =>
      λ st, (Ok (nth (rand (draws st) `mod` length xs)%nat xs x),
             mkState (db st) (new st) (session st) (trace st) (S (draws st)))
  end.

(** [db.query(models.User).filter(models.User.username == username).first()] *)
Definition first_by_username (username : string) (rows : list User.t)
  : option User.t :=
  head (filter (λ u, User.username u = username) rows).

(** [if not username] holds of [None] and of the empty string. *)
Definition get_current_user : M (option User.t) :=
  username ← session_get "user";
  match username with
  | None => mret None
  | Some username =>
      if decide (username = "") then mret None
      else
        rows ← query Db.TUser Db.users;
        mret (first_by_username username rows)
  end.

(** *** Seeding *)

(** [today] is what [datetime.date.today()] answers; one run of the seeding
    is taken to fall within one day. *)
Definition seed_data (today : Z) : M unit :=
  existing ← query Db.TUser Db.users;
  if decide (Z.of_nat (length existing) > 0) then mret tt
  else
    add_all Db.TUser Db.RUser
      [ (λ i, User.mk i "doctor1" (get_password_hash 0 "pass")
                "Dr. Smith" "doctor");
        (λ i, User.mk i "doctor2" (get_password_hash 1 "pass")
                "Dr. Jones" "doctor");
        (λ i, User.mk i "doctor3" (get_password_hash 2 "pass")
                "Dr. Williams" "doctor");
        (λ i, User.mk i "doctor4" (get_password_hash 3 "pass")
                "Dr. Brown" "doctor");
        (λ i, User.mk i "doctor5" (get_password_hash 4 "pass")
                "Dr. Davis" "doctor");
        (λ i, User.mk i "head" (get_password_hash 5 "pass")
                "Dr. Head" "head");
        (λ i, User.mk i "admin" (get_password_hash 6 "pass")
                "Admin User" "admin") ];;
    commit;;
    rows ← query Db.TUser Db.users;
    let docs := filter (λ u, User.role u = "doctor") rows in
    (* Meetings (15) *)
    let types := ["Department"; "CME"; "Hospital-wide"] in
    meetings ← collect (range 15) (λ i,
      ty ← getitem types (i `mod` 3);
      mret (λ k, Meeting.mk k ("Meeting " +:+ pretty (i + 1)) (today - i * 2) ty));
    meetings ← add_all Db.TMeeting Db.RMeeting meetings;
    commit;;
    (* Attendance *)
    for_each meetings (λ m,
      for_each docs (λ d,
        status ← random_choice ["Present"; "Absent"; "Excused"];
        add Db.TAttendance Db.RAttendance
          (λ k, Attendance.mk k (Meeting.id m) (User.id d) status);;
        mret tt));;
    commit;;
    (* Clinic Slots (10) *)
    let days := ["Monday"; "Tuesday"; "Wednesday"; "Thursday"; "Friday"] in
    slots ← collect (range 10) (λ i,
      day ← getitem days (i `mod` 5);
      d ← getitem docs (i `mod` 5);
      mret (λ k, ClinicSlot.mk k day (pretty (8 + i `mod` 4) +:+ ":00")
                   (pretty (12 + i `mod` 4) +:+ ":00") (User.id d)));
    add_all Db.TClinicSlot Db.RClinicSlot slots;;
    commit;;
    (* Service Entries (8) *)
    let procedures := ["Appendectomy"; "Cholecystectomy"; "Hernia Repair";
                       "Consultation"; "Teaching Rounds"] in
    for_each (range 8) (λ i,
      proc ← getitem procedures (i `mod` 5);
      d ← getitem docs (i `mod` 5);
      add Db.TServiceEntry Db.RServiceEntry
        (λ k, ServiceEntry.mk k (today - i) proc (User.id d)
                ("Routine procedure " +:+ pretty (i + 1)));;
      mret tt);;
    commit;;
    (* Research Items (5) *)
    let research :=
      [ ("New Techniques in Surgery", "Publication", "Published");
        ("Annual Medical Conference", "Presentation", "Submitted");
        ("Cardiology Trial Phase 1", "Trial", "Approved");
        ("Pediatric Care Review", "Publication", "Submitted");
        ("Grand Rounds Presentation", "Presentation", "Published") ] in
    for_each (zip (range (length research)) research) (λ '(i, (title, rtype, status)),
      d ← getitem docs (i `mod` 5);
      add Db.TResearchItem Db.RResearchItem
        (λ k, ResearchItem.mk k title rtype status (User.id d));;
      mret tt);;
    commit.

(** *** Routes *)

Definition root : M Response := mret (redirect "/login").

Definition health : M Response := mret (JSONResponse [("status", "ok")]).

Definition login_page : M Response := mret (TemplateResponse "login.html" []).

Definition login (username password : string) : M Response :=
  rows ← query Db.TUser Db.users;
  match first_by_username username rows with
  | None =>
      mret (TemplateResponse "login.html" [("error", VStr "Invalid credentials")])
  | Some user =>
      verified ← call (verify_password password (User.hashed_password user));
      if negb verified then
        mret (TemplateResponse "login.html" [("error", VStr "Invalid credentials")])
      else
        session_set "user" (User.username user);;
        mret (RedirectResponse "/dashboard" HTTP_303_SEE_OTHER)
  end.

Definition logout : M Response :=
  session_pop "user";;
  mret (redirect "/login").

Definition dashboard : M Response :=
  user ← get_current_user;
  match user with
  | None => mret (redirect "/login")
  | Some user =>
      total_meetings ← query Db.TMeeting Db.meetings;
      clinic_sessions ← query Db.TClinicSlot Db.clinic_slots;
      procedures ← query Db.TServiceEntry Db.service_entries;
      research ← query Db.TResearchItem Db.research_items;
      mret (TemplateResponse "dashboard.html"
              [ ("user", VUser user);
                ("stats", VStats
                   [ ("meetings", Z.of_nat (length total_meetings));
                     ("clinics", Z.of_nat (length clinic_sessions));
                     ("procedures", Z.of_nat (length procedures));
                     ("research", Z.of_nat (length research)) ]) ])
  end.

Definition meetings : M Response :=
  user ← get_current_user;
  match user with
  | None => mret (redirect "/login")
  | Some user =>
      attendance ←
        (if decide (User.role user = "admin" ∨ User.role user = "head") then
           query Db.TAttendance Db.attendance
         else
           rows ← query Db.TAttendance Db.attendance;
           mret (filter (λ a, Attendance.user_id a = User.id user) rows));
      mret (TemplateResponse "meetings.html"
              [("user", VUser user); ("attendance", VAttendance attendance)])
  end.

Definition schedule : M Response :=
  user ← get_current_user;
  match user with
  | None => mret (redirect "/login")
  | Some user =>
      slots ← query Db.TClinicSlot Db.clinic_slots;
      mret (TemplateResponse "schedule.html"
              [("user", VUser user); ("slots", VSlots slots)])
  end.

Definition services : M Response :=
  user ← get_current_user;
  match user with
  | None => mret (redirect "/login")
  | Some user =>
      rows ← query Db.TServiceEntry Db.service_entries;
      let entries := order_by_date_desc rows in
      mret (TemplateResponse "services.html"
              [("user", VUser user); ("entries", VEntries entries)])
  end.

Definition add_service (today : Z) (procedure_name notes : string) : M Response :=
  user ← get_current_user;
  match user with
  | None => mret (redirect "/login")
  | Some user =>
      add Db.TServiceEntry Db.RServiceEntry
        (λ k, ServiceEntry.mk k today procedure_name (User.id user) notes);;
      commit;;
      mret (RedirectResponse "/services" HTTP_303_SEE_OTHER)
  end.

Definition research : M Response :=
  user ← get_current_user;
  match user with
  | None => mret (redirect "/login")
  | Some user =>
      items ← query Db.TResearchItem Db.research_items;
      mret (TemplateResponse "research.html"
              [("user", VUser user); ("items", VItems items)])
  end.

(** *** Requests *)

(** A request names its route and carries the form fields the route
    declares as required; the framework turns a request lacking one of
    them away before any handler runs. *)
Inductive Request :=
| GET_root
| GET_health
| GET_login
| POST_login (username password : string)
| GET_logout
| GET_dashboard
| GET_meetings
| GET_schedule
| GET_services
| POST_services (procedure_name notes : string)
| GET_research.

Definition app (today : Z) (req : Request) : M Response :=
  match req with
  | GET_root => root
  | GET_health => health
  | GET_login => login_page
  | POST_login username password => login username password
  | GET_logout => logout
  | GET_dashboard => dashboard
  | GET_meetings => meetings
  | GET_schedule => schedule
  | GET_services => services
  | POST_services procedure_name notes => add_service today procedure_name notes
  | GET_research => research
  end.

(** The routes that ask for the current user. *)
Definition protected (req : Request) : bool :=
  match req with
  | GET_dashboard | GET_meetings | GET_schedule | GET_services
  | POST_services _ _ | GET_research => true
  | _ => false
  end.

(** [SessionLocal()]: a session on the store with nothing pending;
    [db.close()] drops what was added and not committed. *)
Definition open_session (s : Db.Store) (cookie : gmap string string) : State :=
  mkState s [] cookie [] 0.

(** Whom a request carrying [cookie] is taken to come from. *)
Definition current_user (s : Db.Store) (cookie : gmap string string)
  : Result (option User.t) :=
  (get_current_user (open_session s cookie)).1.

Definition close (st : State) : State :=
  mkState (db st) [] (session st) (trace st) (draws st).

(** One request: [get_db] opens a session for it and closes it on every
    exit; [cookie] is the decoded session cookie, empty when the request
    carries none. *)
Definition serve (today : Z) (req : Request)
    (s : Db.Store) (cookie : gmap string string) : Result Response * State :=
  let (r, st) := app today req (open_session s cookie) in (r, close st).

Definition on_startup (today : Z) (s : Db.Store) : Result unit * State :=
  let (r, st) := seed_data today (open_session s ∅) in (r, close st).

End Main.

(** ** Sample data *)

Module Sample.

(** A stand-in for bcrypt: the hash of call [k] is the scheme's tag, the
    salt [k] and the password, each closed by a dollar sign. *)
Definition hash (k : nat) (password : string) : string :=
  "$2b$" +:+ pretty k +:+ "$" +:+ password.

Fixpoint has_nul (password : string) : bool :=
  match password with
  | EmptyString => false
  | String c rest => bool_decide (c = Ascii.zero) || has_nul rest
  end.

Fixpoint after_dollar (s : string) : option string :=
  match s with
  | EmptyString => None
  | String c rest =>
      if bool_decide (String c "" = "$") then Some rest else after_dollar rest
  end.

(** The verifier that goes with it.  As passlib does, it raises on a hash
    that does not carry the scheme's tag and on a password that holds a NUL
    byte. *)
Definition verify (password hashed : string) : Result bool :=
  if negb (String.prefix "$2b$" hashed) then Raise UnknownHashError
  else
    match after_dollar (String.substring 4 (String.length hashed) hashed) with
    | None => Raise UnknownHashError
    | Some digest =>
        if has_nul password then Raise PasswordValueError
        else Ok (bool_decide (digest = password))
    end.

(** The three bytes a, NUL, b. *)
Definition nul_password : string :=
  "a" +:+ String Ascii.zero "b".

(** A generator that counts up. *)
Definition rand (k : nat) : nat := k.

(** Day 739000 of the calendar. *)
Definition today : Z := 739000.

(** The store a first start leaves behind. *)
Definition seeded : Db.Store := db (on_startup hash rand today Db.empty).2.

Definition doctor1 : User.t := User.mk 1 "doctor1" (hash 0 "pass") "Dr. Smith" "doctor".
Definition admin : User.t := User.mk 7 "admin" (hash 6 "pass") "Admin User" "admin".

(** A user whose role is none of the three the seeding hands out. *)
Definition nurse : User.t := User.mk 1 "nurse" (hash 0 "pass") "N. Night" "nurse".

Definition ward : Db.Store :=
  Db.mkStore [nurse]
    []
    [Attendance.mk 1 1 1 "Present"; Attendance.mk 2 1 2 "Absent"]
    [] [] [].

Definition cookie (username : string) : gmap string string :=
  {["user" := username]}.

End Sample.

(** ** Properties *)

(** Unfolds one layer of the monad and of the session operations. *)
Ltac run :=
  repeat progress
    (unfold mbind, M_bind, mret, M_ret, raise, call, query, add, commit,
       record, session_get, session_set, session_pop; cbn).

Section SessionResolution.

Implicit Types (s : Db.Store) (cookie : gmap string string) (st : State).

Lemma get_current_user_anonymous st :
  session st !! "user" = None → get_current_user st = (Ok None, st).
Proof. intros H. unfold get_current_user. run. by rewrite H. Qed.

Lemma get_current_user_empty_name st :
  session st !! "user" = Some "" → get_current_user st = (Ok None, st).
Proof. intros H. unfold get_current_user. run. by rewrite H. Qed.

Lemma get_current_user_named st username :
  session st !! "user" = Some username → username ≠ "" →
  get_current_user st =
    (Ok (first_by_username username (Db.users (db st))),
     mkState (db st) (new st) (session st) (trace st ++ [Db.Query Db.TUser])
       (draws st)).
Proof.
  intros H Hne. unfold get_current_user. run. rewrite H.
  by destruct (decide (username = "")).
Qed.

(** A user is resolved only from a non-empty name stored in the session,
    and is the first row of that name. *)
Lemma get_current_user_some st u st' :
  get_current_user st = (Ok (Some u), st') →
  ∃ username,
    session st !! "user" = Some username ∧ username ≠ "" ∧
    first_by_username username (Db.users (db st)) = Some u ∧
    st' = mkState (db st) (new st) (session st)
            (trace st ++ [Db.Query Db.TUser]) (draws st).
Proof.
  destruct (session st !! "user") as [username|] eqn:H.
  - destruct (decide (username = "")) as [->|Hne].
    + rewrite (get_current_user_empty_name _ H). congruence.
    + rewrite (get_current_user_named _ _ H Hne). intros [= Hu <-]. eauto.
  - rewrite (get_current_user_anonymous _ H). congruence.
Qed.

Lemma first_by_username_elem username rows u :
  first_by_username username rows = Some u →
  u ∈ rows ∧ User.username u = username.
Proof.
  unfold first_by_username. intros H.
  assert (u ∈ filter (λ u, User.username u = username) rows) as Hin.
  { destruct (filter _ rows); simplify_eq/=. left. }
  apply list_elem_of_filter in Hin. tauto.
Qed.

Lemma first_by_username_absent username rows :
  username ∉ User.username <$> rows → first_by_username username rows = None.
Proof.
  intros H. destruct (first_by_username username rows) as [u|] eqn:E; [|done].
  apply first_by_username_elem in E as [Hin <-].
  destruct H. by apply list_elem_of_fmap_2.
Qed.

End SessionResolution.

Section OrderBy.

Implicit Types (e : ServiceEntry.t) (l : list ServiceEntry.t).

#[local] Instance date_desc_trans : Transitive date_desc.
Proof. unfold date_desc. intros a b c. lia. Qed.

Lemma insert_date_desc_perm e l : insert_date_desc e l ≡ₚ e :: l.
Proof.
  induction l as [|x l IH]; cbn; [done|].
  case_decide; [done|]. rewrite IH. apply Permutation_swap.
Qed.

Lemma order_by_date_desc_perm l : order_by_date_desc l ≡ₚ l.
Proof.
  induction l as [|x l IH]; cbn; [done|].
  by rewrite insert_date_desc_perm, IH.
Qed.

Lemma insert_date_desc_sorted e l :
  StronglySorted date_desc l → StronglySorted date_desc (insert_date_desc e l).
Proof.
  induction 1 as [|x l Hl IH Hx]; cbn.
  - repeat constructor.
  - case_decide as Hd.
    + constructor; [by constructor|].
      constructor; [done|].
      eapply Forall_impl; [exact Hx|]. intros y Hy. by etrans.
    + constructor; [done|].
      rewrite insert_date_desc_perm. constructor; [|done].
      unfold date_desc. lia.
Qed.

Lemma order_by_date_desc_sorted l :
  StronglySorted date_desc (order_by_date_desc l).
Proof.
  induction l; cbn; [constructor|]. by apply insert_date_desc_sorted.
Qed.

(** The listing is one a database may give. *)
Lemma order_by_date_desc_listing l :
  date_desc_listing l (order_by_date_desc l).
Proof.
  split; [apply order_by_date_desc_perm|].
  apply StronglySorted_Sorted, order_by_date_desc_sorted.
Qed.

(** In a listing by descending date no date exceeds the one before it. *)
Lemma sorted_adjacent l i a b :
  Sorted date_desc l → l !! i = Some a → l !! S i = Some b →
  ServiceEntry.date b ≤ ServiceEntry.date a.
Proof.
  intros Hs. revert i. induction Hs as [|x l Hl IH Hx]; intros i Ha Hb.
  - done.
  - destruct i as [|i]; [|by eapply IH].
    simplify_eq/=. destruct Hx; by simplify_eq/=.
Qed.

(** An entry dated after every other row of the table heads every
    listing by descending date. *)
Lemma newest_is_listed_first l e out :
  date_desc_listing (l ++ [e]) out →
  (∀ x, x ∈ l → ServiceEntry.date x < ServiceEntry.date e) →
  head out = Some e.
Proof.
  intros [Hp Hs] Hold.
  apply Sorted_StronglySorted in Hs; [|apply _].
  destruct out as [|h t].
  { apply Permutation_nil_l in Hp. by destruct l. }
  cbn. f_equal.
  assert (h ∈ l ++ [e]) as Hh by (rewrite <- Hp; left).
  assert (e ∈ h :: t) as He.
  { rewrite Hp. apply elem_of_app. right. by apply list_elem_of_singleton. }
  apply elem_of_app in Hh. destruct Hh as [Hl|Hl].
  2: { by apply list_elem_of_singleton in Hl. }
  apply elem_of_cons in He. destruct He as [->|Ht]; [done|].
  apply StronglySorted_cons in Hs as [Hall _].
  rewrite Forall_forall in Hall.
  specialize (Hall e Ht). specialize (Hold h Hl).
  unfold date_desc in Hall. lia.
Qed.

End OrderBy.

Section Routes.

Variable verify_password : string → string → Result bool.

Implicit Types (s : Db.Store) (cookie : gmap string string) (u : User.t).

(** What [current_user] says about the handler's own lookup. *)
Lemma current_user_resolved s cookie u :
  current_user s cookie = Ok (Some u) →
  get_current_user (open_session s cookie) =
    (Ok (Some u), mkState s [] cookie [Db.Query Db.TUser] 0).
Proof.
  unfold current_user. intros H.
  destruct (get_current_user (open_session s cookie)) as [r st'] eqn:E.
  simpl in H. subst r.
  by destruct (get_current_user_some _ _ _ E) as (? & _ & _ & _ & ->).
Qed.

(** Runs a protected handler past its [get_current_user] call. *)
Ltac as_user H :=
  unfold serve, app, meetings, schedule, services, add_service,
    research, dashboard;
  unfold mbind at 1, M_bind at 1;
  rewrite (current_user_resolved _ _ _ H).

(** A protected route that resolves no user redirects and does nothing
    more. *)
Lemma protected_without_user today req s cookie st' :
  protected req = true →
  get_current_user (open_session s cookie) = (Ok None, st') →
  serve verify_password today req s cookie = (Ok (redirect "/login"), close st').
Proof.
  intros Hp E. unfold serve.
  destruct req; try discriminate Hp; unfold app;
    unfold dashboard, meetings, schedule, services, add_service, research;
    unfold mbind at 1, M_bind at 1; by rewrite E.
Qed.

(** C1: on GET /meetings an authenticated admin or head is shown every
    attendance row of the store, and an authenticated doctor exactly the
    rows whose [user_id] is the doctor's own id. *)
Theorem meetings_by_role today s cookie u :
  current_user s cookie = Ok (Some u) →
  ∃ rows,
    (serve verify_password today GET_meetings s cookie).1 =
      Ok (TemplateResponse "meetings.html"
            [("user", VUser u); ("attendance", VAttendance rows)]) ∧
    (User.role u = "admin" ∨ User.role u = "head" →
     rows = Db.attendance s) ∧
    (User.role u = "doctor" →
     rows = filter (λ a, Attendance.user_id a = User.id u) (Db.attendance s) ∧
     ∀ a, a ∈ rows ↔ a ∈ Db.attendance s ∧ Attendance.user_id a = User.id u).
Proof.
  intros H. as_user H.
  destruct (decide (User.role u = "admin" ∨ User.role u = "head")) as [Hr|Hr].
  - eexists. split; [reflexivity|]. split; [done|].
    intros Hd. rewrite Hd in Hr. by destruct Hr.
  - eexists. split; [reflexivity|]. split; [tauto|].
    intros _. split; [done|]. intros a. cbn. rewrite list_elem_of_filter. tauto.
Qed.

(** C9: on GET /meetings every authenticated user whose role is neither
    admin nor head, whatever the role string, is shown only the attendance
    rows whose [user_id] is the user's own id. *)
Theorem meetings_restricted_by_default today s cookie u :
  current_user s cookie = Ok (Some u) →
  User.role u ≠ "admin" → User.role u ≠ "head" →
  (serve verify_password today GET_meetings s cookie).1 =
    Ok (TemplateResponse "meetings.html"
          [ ("user", VUser u);
            ("attendance",
             VAttendance (filter (λ a, Attendance.user_id a = User.id u)
                            (Db.attendance s))) ]).
Proof.
  intros H Ha Hh. as_user H.
  destruct (decide (User.role u = "admin" ∨ User.role u = "head")) as [[|]|];
    done.
Qed.

(** C3: a request to a protected route whose session holds no user is
    answered by a redirect to /login, and nothing is asked of or written
    to the persistence layer: the trace stays empty and the store is the
    one the request found. *)
Theorem anonymous_is_redirected today req s cookie :
  protected req = true →
  cookie !! "user" = None →
  serve verify_password today req s cookie = (Ok (redirect "/login"), open_session s cookie).
Proof.
  intros Hp Hc.
  by rewrite (protected_without_user today req s cookie
                (open_session s cookie) Hp)
    by by apply get_current_user_anonymous.
Qed.

(** C8: when the session names a user that is not in the user table,
    resolving the session gives [None] and raises nothing, and every
    protected route answers as it answers a request without a session:
    a redirect to /login, with store and session left as they were. *)
Theorem unknown_user_is_anonymous today req s cookie username :
  cookie !! "user" = Some username →
  username ∉ User.username <$> Db.users s →
  current_user s cookie = Ok None ∧
  (protected req = true →
   (serve verify_password today req s cookie).1 = Ok (redirect "/login") ∧
   (serve verify_password today req s cookie).1 = (serve verify_password today req s ∅).1 ∧
   db (serve verify_password today req s cookie).2 = s ∧
   session (serve verify_password today req s cookie).2 = cookie).
Proof.
  intros Hc Habs.
  assert (∃ st', get_current_user (open_session s cookie) = (Ok None, st')
                 ∧ db st' = s ∧ session st' = cookie) as (st' & E & Hdb & Hs).
  { destruct (decide (username = "")) as [->|Hne].
    - eexists. split; [by apply get_current_user_empty_name|done].
    - rewrite (get_current_user_named _ username) by done.
      cbn. rewrite first_by_username_absent by done. eauto. }
  split; [unfold current_user; by rewrite E|].
  intros Hp.
  rewrite (protected_without_user today req s cookie st' Hp E).
  rewrite (protected_without_user today req s ∅ (open_session s ∅) Hp)
    by by apply get_current_user_anonymous.
  done.
Qed.

Lemma current_user_same_users s s' cookie :
  Db.users s = Db.users s' → current_user s cookie = current_user s' cookie.
Proof.
  intros E. unfold current_user.
  destruct (cookie !! "user") as [username|] eqn:Hc.
  - destruct (decide (username = "")) as [->|Hne].
    + by rewrite !get_current_user_empty_name.
    + rewrite !(get_current_user_named _ username) by done. cbn.
      by rewrite E.
  - by rewrite !get_current_user_anonymous.
Qed.

(** POST /services as a resolved user, start to end. *)
Lemma add_service_as_user today s cookie u procedure_name notes :
  current_user s cookie = Ok (Some u) →
  serve verify_password today (POST_services procedure_name notes) s cookie =
    (Ok (RedirectResponse "/services" 303),
     mkState
       (Db.mkStore (Db.users s) (Db.meetings s) (Db.attendance s)
          (Db.clinic_slots s)
          (Db.service_entries s ++
             [ServiceEntry.mk
                (Db.next_id (ServiceEntry.id <$> Db.service_entries s))
                today procedure_name (User.id u) notes])
          (Db.research_items s))
       [] cookie [Db.Query Db.TUser; Db.Add Db.TServiceEntry; Db.Commit] 0).
Proof.
  intros H. as_user H. run. unfold fresh_id. cbn.
  by rewrite Z.add_0_r.
Qed.

(** GET /services as a resolved user. *)
Lemma services_as_user today s cookie u :
  current_user s cookie = Ok (Some u) →
  (serve verify_password today GET_services s cookie).1 =
    Ok (TemplateResponse "services.html"
          [ ("user", VUser u);
            ("entries", VEntries (order_by_date_desc (Db.service_entries s))) ]).
Proof. intros H. by as_user H. Qed.

(** GET /dashboard as a resolved user. *)
Lemma dashboard_as_user today s cookie u :
  current_user s cookie = Ok (Some u) →
  (serve verify_password today GET_dashboard s cookie).1 =
    Ok (TemplateResponse "dashboard.html"
          [ ("user", VUser u);
            ("stats", VStats
               [ ("meetings", Z.of_nat (length (Db.meetings s)));
                 ("clinics", Z.of_nat (length (Db.clinic_slots s)));
                 ("procedures", Z.of_nat (length (Db.service_entries s)));
                 ("research", Z.of_nat (length (Db.research_items s))) ]) ]).
Proof. intros H. by as_user H. Qed.

(** POST /login with the password of a stored user binds the session to
    that user and redirects to the dashboard. *)
Lemma login_success_sets_session today s cookie username password u :
  first_by_username username (Db.users s) = Some u →
  verify_password password (User.hashed_password u) = Ok true →
  serve verify_password today (POST_login username password) s cookie =
    (Ok (RedirectResponse "/dashboard" 303),
     mkState s [] (<["user" := User.username u]> cookie) [Db.Query Db.TUser] 0).
Proof.
  intros Hu Hv. unfold serve, app, login. run. rewrite Hu. run.
  by rewrite Hv.
Qed.

(** POST /login, whatever the credentials, in terms of what the lookup and
    the verifier answer. *)
Lemma login_run today s cookie username password :
  serve verify_password today (POST_login username password) s cookie =
    match first_by_username username (Db.users s) with
    | None =>
        (Ok (TemplateResponse "login.html"
               [("error", VStr "Invalid credentials")]),
         mkState s [] cookie [Db.Query Db.TUser] 0)
    | Some u =>
        match verify_password password (User.hashed_password u) with
        | Ok true =>
            (Ok (RedirectResponse "/dashboard" 303),
             mkState s [] (<["user" := User.username u]> cookie)
               [Db.Query Db.TUser] 0)
        | Ok false =>
            (Ok (TemplateResponse "login.html"
                   [("error", VStr "Invalid credentials")]),
             mkState s [] cookie [Db.Query Db.TUser] 0)
        | Raise e => (Raise e, mkState s [] cookie [Db.Query Db.TUser] 0)
        end
    end.
Proof.
  unfold serve, app, login. run.
  destruct (first_by_username username (Db.users s)) as [u|]; [|done]. run.
  by destruct (verify_password password (User.hashed_password u)) as [[|]|e].
Qed.

(** C2 (amended): a POST /login whose username is not in the user table,
    or whose password is not verified against the hash stored for that
    username, never establishes a session: the session stays as it was and
    only the users query reaches the store.  When the username is absent or
    the verifier answers false, the response is the login form carrying the
    error message, not a redirect.  When the verifier raises instead, the
    exception leaves the handler and no form is rendered. *)
Theorem login_failure_keeps_session today s cookie username password :
  username ∉ User.username <$> Db.users s ∨
  (∃ u, first_by_username username (Db.users s) = Some u ∧
        verify_password password (User.hashed_password u) ≠ Ok true) →
  let out := serve verify_password today (POST_login username password) s cookie in
  out.2 = mkState s [] cookie [Db.Query Db.TUser] 0 ∧
  (username ∉ User.username <$> Db.users s ∨
   (∃ u, first_by_username username (Db.users s) = Some u ∧
         verify_password password (User.hashed_password u) = Ok false) →
   out.1 = Ok (TemplateResponse "login.html"
                 [("error", VStr "Invalid credentials")])) ∧
  (∀ u e, first_by_username username (Db.users s) = Some u →
          verify_password password (User.hashed_password u) = Raise e →
          out.1 = Raise e).
Proof.
  intros H. cbv zeta. rewrite login_run. split; [|split].
  - destruct H as [H|(u & Hu & Hv)].
    + by rewrite first_by_username_absent.
    + rewrite Hu.
      by destruct (verify_password password (User.hashed_password u))
        as [[|]|e].
  - intros [H'|(u & Hu & Hv)].
    + by rewrite first_by_username_absent.
    + by rewrite Hu, Hv.
  - intros u e Hu Hv. by rewrite Hu, Hv.
Qed.

(** C4: an authenticated POST /services with [procedure_name] and [notes]
    appends exactly one row to the service entries, owned by the
    authenticated user, dated today and carrying the two fields; every
    other table is as before; the answer is a 303 redirect to /services. *)
Theorem add_service_inserts_one_entry today s cookie u procedure_name notes :
  current_user s cookie = Ok (Some u) →
  let out := serve verify_password today (POST_services procedure_name notes) s cookie in
  out.1 = Ok (RedirectResponse "/services" HTTP_303_SEE_OTHER) ∧
  (∃ entry,
     Db.service_entries (db out.2) = Db.service_entries s ++ [entry] ∧
     ServiceEntry.user_id entry = User.id u ∧
     ServiceEntry.date entry = today ∧
     ServiceEntry.procedure_name entry = procedure_name ∧
     ServiceEntry.notes entry = notes) ∧
  Db.users (db out.2) = Db.users s ∧
  Db.meetings (db out.2) = Db.meetings s ∧
  Db.attendance (db out.2) = Db.attendance s ∧
  Db.clinic_slots (db out.2) = Db.clinic_slots s ∧
  Db.research_items (db out.2) = Db.research_items s.
Proof.
  intros H out. subst out. rewrite (add_service_as_user _ _ _ _ _ _ H). cbn.
  split; [done|]. split; [|done]. eexists. by split.
Qed.

(** C5 (amended): GET /services lists the service entries of the store by
    descending date: of any two neighbours the second is not dated after
    the first.  After an authenticated POST /services the new entry is in
    the listing of a following GET /services, and it heads the listing
    when every entry stored before was dated earlier than today. *)
Theorem services_listed_by_date_desc
    today today' s cookie u procedure_name notes :
  current_user s cookie = Ok (Some u) →
  (∃ entries,
     (serve verify_password today GET_services s cookie).1 =
       Ok (TemplateResponse "services.html"
             [("user", VUser u); ("entries", VEntries entries)]) ∧
     entries ≡ₚ Db.service_entries s ∧
     ∀ i a b, entries !! i = Some a → entries !! S i = Some b →
              ServiceEntry.date b ≤ ServiceEntry.date a) ∧
  (let s' := db (serve verify_password today (POST_services procedure_name notes) s cookie).2 in
   ∃ entry entries',
     Db.service_entries s' = Db.service_entries s ++ [entry] ∧
     ServiceEntry.date entry = today ∧
     (serve verify_password today' GET_services s' cookie).1 =
       Ok (TemplateResponse "services.html"
             [("user", VUser u); ("entries", VEntries entries')]) ∧
     entry ∈ entries' ∧
     ((∀ e, e ∈ Db.service_entries s → ServiceEntry.date e < today) →
      head entries' = Some entry)).
Proof.
  intros H. split.
  - eexists. split; [by apply services_as_user|].
    destruct (order_by_date_desc_listing (Db.service_entries s)) as [Hp Hs].
    split; [done|]. intros i a b. by apply sorted_adjacent.
  - rewrite (add_service_as_user _ _ _ _ _ _ H). cbn.
    eexists _, _. split; [done|]. split; [done|].
    split.
    { apply services_as_user.
      by rewrite <- (current_user_same_users s). }
    cbn.
    split.
    + rewrite order_by_date_desc_perm. apply elem_of_app. right.
      by apply list_elem_of_singleton.
    + intros Hold. eapply newest_is_listed_first.
      * apply order_by_date_desc_listing.
      * done.
Qed.

End Routes.

Section Seeding.

Variable get_password_hash : nat → string → string.
Variable rand : nat → nat.

Implicit Types (s : Db.Store).

(** With a user row in the table the seeding asks for the users and
    returns at once. *)
Lemma seed_data_skips today s :
  Db.users s ≠ [] →
  on_startup get_password_hash rand today s = (Ok tt, mkState s [] ∅ [Db.Query Db.TUser] 0).
Proof.
  intros H. unfold on_startup, seed_data.
  match goal with
  | |- context [if decide _ then mret tt else ?rest] => generalize rest
  end.
  intros rest. run.
  destruct (Db.users s) as [|u us] eqn:E; [done|]. cbn.
  destruct (decide _) as [|Hn]; [done|]. destruct Hn. lia.
Qed.

(** On an empty user table the seeding runs to its end and stores the
    seven users, whatever the other tables hold. *)
Lemma seed_data_fills_users today s :
  Db.users s = [] →
  (on_startup get_password_hash rand today s).1 = Ok tt ∧
  User.username <$> Db.users (db (on_startup get_password_hash rand today s).2) =
    ["doctor1"; "doctor2"; "doctor3"; "doctor4"; "doctor5"; "head"; "admin"].
Proof.
  destruct s as [us ms ats cs es rs]. cbn. intros ->.
  split; vm_compute; reflexivity.
Qed.

Lemma seeded_names_nodup :
  NoDup ["doctor1"; "doctor2"; "doctor3"; "doctor4"; "doctor5"; "head"; "admin"].
Proof. apply (bool_decide_unpack _). by vm_compute. Qed.

End Seeding.

Section Startup.

(** Two starts of the application need not share their bcrypt salts, their
    random draws or their day. *)
Variables get_password_hash get_password_hash' : nat → string → string.
Variables rand rand' : nat → nat.
Variable verify_password : string → string → Result bool.

Implicit Types (s : Db.Store) (cookie : gmap string string) (u : User.t).

(** C6: for any store, seeding a second time leaves the user table as the
    first seeding left it, and the usernames stay free of duplicates; a
    seeding that finds a user row returns without inserting. *)
Theorem seed_data_twice_same_users today today' s :
  let once := on_startup get_password_hash rand today s in
  let twice := on_startup get_password_hash' rand' today' (db once.2) in
  once.1 = Ok tt ∧ twice.1 = Ok tt ∧
  Db.users (db twice.2) = Db.users (db once.2) ∧
  (NoDup (User.username <$> Db.users s) →
   NoDup (User.username <$> Db.users (db twice.2))) ∧
  (Db.users s ≠ [] → Db.users (db once.2) = Db.users s).
Proof.
  intros once twice. subst once twice.
  destruct (decide (Db.users s = [])) as [He|Hne].
  - destruct (seed_data_fills_users get_password_hash rand today s He)
      as [Hok Hnames].
    assert (Db.users (db (on_startup get_password_hash rand today s).2) ≠ [])
      as Hfull.
    { intros E. by rewrite E in Hnames. }
    rewrite (seed_data_skips get_password_hash' rand' today' _ Hfull). cbn.
    repeat split; try done.
    intros _. rewrite Hnames. apply seeded_names_nodup.
  - rewrite (seed_data_skips get_password_hash rand today s Hne). cbn.
    by rewrite (seed_data_skips get_password_hash' rand' today' s Hne).
Qed.

(** C10: when the user table holds a row, seeding returns after its one
    query on the users and leaves every table as it was, whatever the other
    tables hold. *)
Theorem seed_data_only_checks_users today s :
  Db.users s ≠ [] →
  (on_startup get_password_hash rand today s).1 = Ok tt ∧
  db (on_startup get_password_hash rand today s).2 = s ∧
  trace (on_startup get_password_hash rand today s).2 = [Db.Query Db.TUser].
Proof. intros H. by rewrite (seed_data_skips _ _ today s H). Qed.

(** Seeding an empty store runs to its end and stores 15 meetings, 10
    clinic slots, 8 service entries and 5 research items. *)
Lemma seed_data_totals today :
  let out := on_startup get_password_hash rand today Db.empty in
  out.1 = Ok tt ∧
  length (Db.meetings (db out.2)) = 15%nat ∧
  length (Db.clinic_slots (db out.2)) = 10%nat ∧
  length (Db.service_entries (db out.2)) = 8%nat ∧
  length (Db.research_items (db out.2)) = 5%nat.
Proof. cbv zeta. repeat split; vm_compute; reflexivity. Qed.

(** C7: once seeding has run on an empty store, GET /dashboard answers a
    logged-in user with the counts 15 meetings, 10 clinic slots, 8 service
    entries and 5 research items. *)
Theorem dashboard_counts_after_seeding seed_day today cookie u :
  let startup := on_startup get_password_hash rand seed_day Db.empty in
  current_user (db startup.2) cookie = Ok (Some u) →
  startup.1 = Ok tt ∧
  (serve verify_password today GET_dashboard (db startup.2) cookie).1 =
    Ok (TemplateResponse "dashboard.html"
          [ ("user", VUser u);
            ("stats", VStats [ ("meetings", 15); ("clinics", 10);
                               ("procedures", 8); ("research", 5) ]) ]).
Proof.
  intros startup H. subst startup.
  destruct (seed_data_totals seed_day) as (Hok & Hm & Hc & He & Hr).
  split; [done|].
  rewrite (dashboard_as_user verify_password today _ cookie u H).
  by rewrite Hm, Hc, He, Hr.
Qed.

End Startup.

(** ** The properties at the sample data *)

(** C1 at the seeded store, for doctor1. *)
Lemma meetings_by_role_witness :
  current_user Sample.seeded (Sample.cookie "doctor1") = Ok (Some Sample.doctor1) ∧
  ∃ rows,
    (serve Sample.verify Sample.today GET_meetings Sample.seeded
       (Sample.cookie "doctor1")).1 =
      Ok (TemplateResponse "meetings.html"
            [("user", VUser Sample.doctor1); ("attendance", VAttendance rows)]) ∧
    rows = filter (λ a, Attendance.user_id a = 1) (Db.attendance Sample.seeded) ∧
    length rows = 15%nat.
Proof.
  assert (current_user Sample.seeded (Sample.cookie "doctor1")
          = Ok (Some Sample.doctor1)) as H by (vm_compute; reflexivity).
  split; [exact H|].
  destruct (meetings_by_role Sample.verify Sample.today _ _ _ H)
    as (rows & Hresp & _ & Hdoctor).
  exists rows. split; [exact Hresp|].
  destruct (Hdoctor eq_refl) as [-> _]. split; [reflexivity|].
  vm_compute. reflexivity.
Defined.

(** C9 at a store whose only user is a nurse. *)
Lemma meetings_restricted_by_default_witness :
  current_user Sample.ward (Sample.cookie "nurse") = Ok (Some Sample.nurse) ∧
  User.role Sample.nurse ≠ "admin" ∧
  User.role Sample.nurse ≠ "head" ∧
  (serve Sample.verify Sample.today GET_meetings Sample.ward
     (Sample.cookie "nurse")).1 =
    Ok (TemplateResponse "meetings.html"
          [ ("user", VUser Sample.nurse);
            ("attendance", VAttendance [Attendance.mk 1 1 1 "Present"]) ]).
Proof.
  assert (current_user Sample.ward (Sample.cookie "nurse")
          = Ok (Some Sample.nurse)) as H by (vm_compute; reflexivity).
  assert (User.role Sample.nurse ≠ "admin") as Ha by discriminate.
  assert (User.role Sample.nurse ≠ "head") as Hh by discriminate.
  split; [exact H|]. split; [exact Ha|]. split; [exact Hh|].
  exact (meetings_restricted_by_default Sample.verify Sample.today _ _ _ H Ha Hh).
Defined.

(** C3 at the seeded store, for GET /dashboard without a cookie. *)
Lemma anonymous_is_redirected_witness :
  protected GET_dashboard = true ∧
  (∅ : gmap string string) !! "user" = None ∧
  serve Sample.verify Sample.today GET_dashboard Sample.seeded ∅ =
    (Ok (redirect "/login"), open_session Sample.seeded ∅).
Proof.
  split; [reflexivity|]. split; [apply lookup_empty|].
  apply (anonymous_is_redirected Sample.verify Sample.today GET_dashboard);
    [reflexivity|apply lookup_empty].
Defined.

(** C8 at the seeded store, for a session that names nobody stored. *)
Lemma unknown_user_is_anonymous_witness :
  Sample.cookie "ghost" !! "user" = Some "ghost" ∧
  ("ghost" ∉ User.username <$> Db.users Sample.seeded) ∧
  current_user Sample.seeded (Sample.cookie "ghost") = Ok None ∧
  (serve Sample.verify Sample.today GET_services Sample.seeded
     (Sample.cookie "ghost")).1 = Ok (redirect "/login").
Proof.
  assert (Sample.cookie "ghost" !! "user" = Some "ghost") as Hc
    by apply lookup_singleton_eq.
  assert ("ghost" ∉ User.username <$> Db.users Sample.seeded) as Habs.
  { apply (bool_decide_unpack _). vm_compute. exact I. }
  destruct (unknown_user_is_anonymous Sample.verify Sample.today GET_services
              _ _ _ Hc Habs) as [Hnone Hprot].
  split; [exact Hc|]. split; [exact Habs|]. split; [exact Hnone|].
  apply Hprot. reflexivity.
Defined.

(** C2 (amended) at the seeded store, for doctor1 with a wrong password. *)
Lemma login_failure_keeps_session_witness :
  (∃ u, first_by_username "doctor1" (Db.users Sample.seeded) = Some u ∧
        Sample.verify "wrong" (User.hashed_password u) = Ok false) ∧
  let out := serve Sample.verify Sample.today (POST_login "doctor1" "wrong")
               Sample.seeded ∅ in
  out.2 = mkState Sample.seeded [] ∅ [Db.Query Db.TUser] 0 ∧
  out.1 = Ok (TemplateResponse "login.html"
                [("error", VStr "Invalid credentials")]).
Proof.
  assert (∃ u, first_by_username "doctor1" (Db.users Sample.seeded) = Some u ∧
               Sample.verify "wrong" (User.hashed_password u) = Ok false) as H.
  { exists Sample.doctor1. split; vm_compute; reflexivity. }
  assert (∃ u, first_by_username "doctor1" (Db.users Sample.seeded) = Some u ∧
               Sample.verify "wrong" (User.hashed_password u) ≠ Ok true) as H'.
  { destruct H as (u & Hu & Hv). exists u. split; [exact Hu|].
    rewrite Hv. discriminate. }
  destruct (login_failure_keeps_session Sample.verify Sample.today
              Sample.seeded ∅ "doctor1" "wrong" (or_intror H'))
    as (Hstate & Hform & _).
  split; [exact H|]. split; [exact Hstate|]. exact (Hform (or_intror H)).
Defined.

(** C2 as stated fails at the seeded store: doctor1 is stored, a password
    holding a NUL byte is not verified against the stored hash, since the
    verifier raises on it, and POST /login then ends in that exception
    instead of the login form.  No session is established. *)
Lemma login_nul_password_raises :
  let out := serve Sample.verify Sample.today
               (POST_login "doctor1" Sample.nul_password) Sample.seeded ∅ in
  first_by_username "doctor1" (Db.users Sample.seeded) = Some Sample.doctor1 ∧
  Sample.verify Sample.nul_password (User.hashed_password Sample.doctor1) =
    Raise PasswordValueError ∧
  out.1 = Raise PasswordValueError ∧
  out.1 ≠ Ok (TemplateResponse "login.html"
                [("error", VStr "Invalid credentials")]) ∧
  session out.2 = ∅.
Proof.
  cbv zeta.
  assert ((serve Sample.verify Sample.today
             (POST_login "doctor1" Sample.nul_password) Sample.seeded ∅).1
          = Raise PasswordValueError) as Hraise by (vm_compute; reflexivity).
  split; [vm_compute; reflexivity|]. split; [vm_compute; reflexivity|].
  split; [exact Hraise|]. split; [rewrite Hraise; discriminate|].
  vm_compute. reflexivity.
Qed.

(** C4 at the seeded store, for doctor1. *)
Lemma add_service_inserts_one_entry_witness :
  current_user Sample.seeded (Sample.cookie "doctor1") = Ok (Some Sample.doctor1) ∧
  let out := serve Sample.verify Sample.today (POST_services "X" "Y")
               Sample.seeded (Sample.cookie "doctor1") in
  out.1 = Ok (RedirectResponse "/services" 303) ∧
  Db.service_entries (db out.2) =
    Db.service_entries Sample.seeded ++ [ServiceEntry.mk 9 Sample.today "X" 1 "Y"] ∧
  Db.users (db out.2) = Db.users Sample.seeded.
Proof.
  assert (current_user Sample.seeded (Sample.cookie "doctor1")
          = Ok (Some Sample.doctor1)) as H by (vm_compute; reflexivity).
  split; [exact H|].
  destruct (add_service_inserts_one_entry Sample.verify Sample.today _ _ _
              "X" "Y" H) as (Hresp & _ & Hu & _).
  split; [exact Hresp|]. split; [vm_compute; reflexivity|exact Hu].
Defined.

(** C5 (amended) at the seeded store, for an entry added the day after the
    seeding: it heads the listing. *)
Lemma services_listed_by_date_desc_witness :
  current_user Sample.seeded (Sample.cookie "doctor1") = Ok (Some Sample.doctor1) ∧
  let s' := db (serve Sample.verify (Sample.today + 1) (POST_services "X" "Y")
                  Sample.seeded (Sample.cookie "doctor1")).2 in
  ∃ entry entries',
    Db.service_entries s' = Db.service_entries Sample.seeded ++ [entry] ∧
    (serve Sample.verify (Sample.today + 1) GET_services s'
       (Sample.cookie "doctor1")).1 =
      Ok (TemplateResponse "services.html"
            [("user", VUser Sample.doctor1); ("entries", VEntries entries')]) ∧
    head entries' = Some entry.
Proof.
  assert (current_user Sample.seeded (Sample.cookie "doctor1")
          = Ok (Some Sample.doctor1)) as H by (vm_compute; reflexivity).
  split; [exact H|].
  destruct (services_listed_by_date_desc Sample.verify (Sample.today + 1)
              (Sample.today + 1) _ _ _ "X" "Y" H)
    as (_ & entry & entries' & Hs' & _ & Hresp & _ & Hfirst).
  exists entry, entries'. split; [exact Hs'|]. split; [exact Hresp|].
  apply Hfirst. apply Forall_forall.
  apply (bool_decide_unpack _). vm_compute. exact I.
Defined.

(** C5 as stated fails at the seeded store: the seeding stored an entry dated
    today, an entry posted the same day has the same date, and GET /services
    lists the seeded one before it; that listing is by descending date. *)
Lemma services_new_entry_not_first :
  let cookie := Sample.cookie "doctor1" in
  let s' := db (serve Sample.verify Sample.today (POST_services "X" "Y")
                  Sample.seeded cookie).2 in
  let new_entry := ServiceEntry.mk 9 Sample.today "X" 1 "Y" in
  let seeded_entry :=
    ServiceEntry.mk 1 Sample.today "Appendectomy" 1 "Routine procedure 1" in
  let listing := order_by_date_desc (Db.service_entries s') in
  current_user Sample.seeded cookie = Ok (Some Sample.doctor1) ∧
  Db.service_entries s' = Db.service_entries Sample.seeded ++ [new_entry] ∧
  (serve Sample.verify Sample.today GET_services s' cookie).1 =
    Ok (TemplateResponse "services.html"
          [("user", VUser Sample.doctor1); ("entries", VEntries listing)]) ∧
  date_desc_listing (Db.service_entries s') listing ∧
  head listing = Some seeded_entry ∧
  head listing ≠ Some new_entry.
Proof.
  cbv zeta.
  assert (head (order_by_date_desc
                  (Db.service_entries
                     (db (serve Sample.verify Sample.today
                            (POST_services "X" "Y") Sample.seeded
                            (Sample.cookie "doctor1")).2)))
          = Some (ServiceEntry.mk 1 Sample.today "Appendectomy" 1
                    "Routine procedure 1")) as Hhead
    by (vm_compute; reflexivity).
  split; [vm_compute; reflexivity|]. split; [vm_compute; reflexivity|].
  split; [vm_compute; reflexivity|].
  split; [apply order_by_date_desc_listing|].
  split; [exact Hhead|]. rewrite Hhead. discriminate.
Qed.

(** C7 at the seeded store, for doctor1. *)
Lemma dashboard_counts_after_seeding_witness :
  current_user Sample.seeded (Sample.cookie "doctor1") = Ok (Some Sample.doctor1) ∧
  (serve Sample.verify Sample.today GET_dashboard Sample.seeded
     (Sample.cookie "doctor1")).1 =
    Ok (TemplateResponse "dashboard.html"
          [ ("user", VUser Sample.doctor1);
            ("stats", VStats [ ("meetings", 15); ("clinics", 10);
                               ("procedures", 8); ("research", 5) ]) ]).
Proof.
  unfold Sample.seeded.
  assert (current_user
            (db (on_startup Sample.hash Sample.rand Sample.today Db.empty).2)
            (Sample.cookie "doctor1")
          = Ok (Some Sample.doctor1)) as H by (vm_compute; reflexivity).
  split; [exact H|].
  apply (dashboard_counts_after_seeding Sample.hash Sample.rand Sample.verify
           Sample.today Sample.today (Sample.cookie "doctor1") Sample.doctor1 H).
Defined.

(** C10 at a store with one user and no meetings, clinic slots, service
    entries or research items. *)
Lemma seed_data_only_checks_users_witness :
  Db.users Sample.ward ≠ [] ∧
  db (on_startup Sample.hash Sample.rand Sample.today Sample.ward).2 = Sample.ward.
Proof.
  assert (Db.users Sample.ward ≠ []) as H by discriminate.
  split; [exact H|].
  exact (proj1 (proj2 (seed_data_only_checks_users Sample.hash Sample.rand
                         Sample.today Sample.ward H))).
Defined.

(** ** Beyond the listed claims: sessions and frames *)

Section Frames.

Variable verify_password : string → string → Result bool.

Implicit Types (s : Db.Store) (cookie : gmap string string) (u : User.t)
  (st : State) (req : Request).

(** Resolving the current user never raises and changes nothing but the
    trace, to which it adds at most the users query. *)
Lemma get_current_user_frame st :
  ∃ o ops,
    get_current_user st =
      (Ok o, mkState (db st) (new st) (session st) (trace st ++ ops) (draws st)) ∧
    (ops = [] ∨ ops = [Db.Query Db.TUser]).
Proof.
  destruct (session st !! "user") as [username|] eqn:H.
  - destruct (decide (username = "")) as [->|Hne].
    + exists None, []. rewrite (get_current_user_empty_name _ H).
      rewrite app_nil_r. split; [by destruct st|by left].
    + eexists _, _. rewrite (get_current_user_named _ _ H Hne).
      split; [done|by right].
  - exists None, []. rewrite (get_current_user_anonymous _ H).
    rewrite app_nil_r. split; [by destruct st|by left].
Qed.

Lemma current_user_named s cookie username :
  cookie !! "user" = Some username → username ≠ "" →
  current_user s cookie = Ok (first_by_username username (Db.users s)).
Proof.
  intros H Hne. unfold current_user.
  by rewrite (get_current_user_named _ username).
Qed.

(** Runs a protected handler up to the outcome [o] of its user lookup, and
    then to its end; the run is kept as an equation [E]. *)
Ltac lookup_user o E :=
  match goal with
  | |- context [serve ?v ?t ?r ?s ?c] =>
      let out := fresh "out" in
      let ops := fresh "ops" in
      let Eg := fresh "Eg" in
      remember (serve v t r s c) as out eqn:E;
      unfold serve, app, dashboard, meetings, schedule, services, add_service,
        research in E;
      unfold mbind at 1, M_bind at 1 in E;
      destruct (get_current_user_frame (open_session s c)) as (o & ops & Eg & _);
      rewrite Eg in E; clear Eg
  end.

Ltac run_in E :=
  repeat progress
    (unfold mbind, M_bind, mret, M_ret, raise, call, query, add, commit,
       record, session_get, session_set, session_pop, fresh_id in E; cbn in E).

(** X1: whether it answers or raises, no request changes a table other
    than the service entries, which only grow at their end; a request other
    than POST /services leaves the whole store as it found it. *)
Theorem requests_only_append_service_entries today req s cookie :
  let out := serve verify_password today req s cookie in
  Db.users (db out.2) = Db.users s ∧
  Db.meetings (db out.2) = Db.meetings s ∧
  Db.attendance (db out.2) = Db.attendance s ∧
  Db.clinic_slots (db out.2) = Db.clinic_slots s ∧
  Db.research_items (db out.2) = Db.research_items s ∧
  Db.service_entries s `prefix_of` Db.service_entries (db out.2) ∧
  ((∀ procedure_name notes, req ≠ POST_services procedure_name notes) →
   db out.2 = s).
Proof.
  cbv zeta.
  destruct req as [| | |username password| | | | | |procedure_name notes|].
  1-3, 5: by (repeat split; eauto).
  - rewrite login_run.
    destruct (first_by_username username (Db.users s)) as [u|];
      [destruct (verify_password password (User.hashed_password u))
         as [[|]|e]|];
      cbn; by (repeat split; eauto).
  - lookup_user o E. destruct o; run_in E; subst; cbn; by (repeat split; eauto).
  - lookup_user o E. destruct o as [u|].
    + destruct (decide (User.role u = "admin" ∨ User.role u = "head"));
        run_in E; subst; cbn; by (repeat split; eauto).
    + run_in E; subst; cbn; by (repeat split; eauto).
  - lookup_user o E. destruct o; run_in E; subst; cbn; by (repeat split; eauto).
  - lookup_user o E. destruct o; run_in E; subst; cbn; by (repeat split; eauto).
  - lookup_user o E. destruct o as [u|]; run_in E; subst; cbn.
    + repeat split; eauto.
      * by apply prefix_app_r.
      * intros Hneq. by destruct (Hneq procedure_name notes).
    + by (repeat split; eauto).
  - lookup_user o E. destruct o; run_in E; subst; cbn; by (repeat split; eauto).
Qed.

(** X2: only POST /login and GET /logout touch the session: every other
    request hands back the session it came with. *)
Theorem session_changed_only_by_login_logout today req s cookie :
  (∀ username password, req ≠ POST_login username password) →
  req ≠ GET_logout →
  session (serve verify_password today req s cookie).2 = cookie.
Proof.
  intros Hlogin Hlogout.
  destruct req as [| | |username password| | | | | |procedure_name notes|];
    try done.
  - by destruct (Hlogin username password).
  - lookup_user o E. by destruct o; run_in E; subst.
  - lookup_user o E. destruct o as [u|]; [|by run_in E; subst].
    by destruct (decide (User.role u = "admin" ∨ User.role u = "head"));
      run_in E; subst.
  - lookup_user o E. by destruct o; run_in E; subst.
  - lookup_user o E. by destruct o; run_in E; subst.
  - lookup_user o E. by destruct o; run_in E; subst.
  - lookup_user o E. by destruct o; run_in E; subst.
Qed.

(** X3: a session whose user entry is the empty string counts as no
    session: a protected route redirects to /login without asking the
    persistence layer anything. *)
Theorem empty_username_is_no_session today req s cookie :
  protected req = true →
  cookie !! "user" = Some "" →
  serve verify_password today req s cookie =
    (Ok (redirect "/login"), open_session s cookie).
Proof.
  intros Hp Hc.
  by rewrite (protected_without_user verify_password today req s cookie
                (open_session s cookie) Hp)
    by by apply get_current_user_empty_name.
Qed.

Lemma logout_run today s cookie :
  serve verify_password today GET_logout s cookie =
    (Ok (redirect "/login"), open_session s (delete "user" cookie)).
Proof. done. Qed.

(** X4: GET /logout, with or without a user in the session, removes the
    user entry and nothing else, asks nothing of the persistence layer and
    redirects to /login; with the session it leaves, every protected route
    redirects to /login. *)
Theorem logout_ends_session today today' req s cookie :
  let out := serve verify_password today GET_logout s cookie in
  out = (Ok (redirect "/login"), open_session s (delete "user" cookie)) ∧
  session out.2 !! "user" = None ∧
  (∀ key, key ≠ "user" → session out.2 !! key = cookie !! key) ∧
  (protected req = true →
   serve verify_password today' req (db out.2) (session out.2) =
     (Ok (redirect "/login"), open_session s (delete "user" cookie))).
Proof.
  cbv zeta. rewrite logout_run.
  cbn. split; [done|]. split; [apply lookup_delete_eq|].
  split; [intros key Hk; by apply lookup_delete_ne|].
  intros Hp.
  rewrite (protected_without_user verify_password today' req s _
             (open_session s (delete "user" cookie)) Hp); [done|].
  apply get_current_user_anonymous. cbn. apply lookup_delete_eq.
Qed.

(** X5: after a POST /login with the password of a stored user whose
    username is not empty, the response is a 303 redirect to /dashboard,
    the store is untouched, and the session it leaves resolves to that user
    on the next request. *)
Theorem login_then_authenticated today s cookie username password u :
  first_by_username username (Db.users s) = Some u →
  verify_password password (User.hashed_password u) = Ok true →
  username ≠ "" →
  let out := serve verify_password today (POST_login username password) s cookie in
  out.1 = Ok (RedirectResponse "/dashboard" HTTP_303_SEE_OTHER) ∧
  db out.2 = s ∧
  session out.2 = <["user" := username]> cookie ∧
  current_user (db out.2) (session out.2) = Ok (Some u).
Proof.
  intros Hu Hv Hne. cbv zeta.
  rewrite (login_success_sets_session verify_password today s cookie
             username password u Hu Hv).
  destruct (first_by_username_elem _ _ _ Hu) as [_ Hname]. cbn.
  rewrite Hname. repeat split.
  rewrite (current_user_named s _ username); [by rewrite Hu| |done].
  apply lookup_insert_eq.
Qed.

(** X6: logging in and then out leaves the session the request came with,
    less its user entry; a session that carried no user comes back
    unchanged. *)
Theorem login_logout_round_trip today today' s cookie username password u :
  first_by_username username (Db.users s) = Some u →
  verify_password password (User.hashed_password u) = Ok true →
  let logged_in :=
    serve verify_password today (POST_login username password) s cookie in
  let logged_out :=
    serve verify_password today' GET_logout (db logged_in.2) (session logged_in.2) in
  session logged_out.2 = delete "user" cookie ∧
  db logged_out.2 = s ∧
  (cookie !! "user" = None → session logged_out.2 = cookie).
Proof.
  intros Hu Hv. cbv zeta.
  rewrite (login_success_sets_session verify_password today s cookie
             username password u Hu Hv).
  cbn. rewrite logout_run. cbn. rewrite delete_insert_eq. repeat split.
  apply delete_id.
Qed.

End Frames.

(** ** Beyond the listed claims: what the pages show *)

Section Views.

Variable verify_password : string → string → Result bool.

Implicit Types (s : Db.Store) (cookie : gmap string string) (u : User.t).

(** Runs a protected handler past its user lookup, for a resolved user. *)
Ltac resolved H :=
  unfold serve, app, meetings, schedule, research;
  unfold mbind at 1, M_bind at 1;
  rewrite (current_user_resolved _ _ _ H).

(** X7: GET /schedule and GET /research show a logged-in user, whatever the
    role, the whole table in table order: the clinic slots and research
    items of every user, not only the user's own. *)
Theorem schedule_and_research_show_all_rows today s cookie u :
  current_user s cookie = Ok (Some u) →
  (serve verify_password today GET_schedule s cookie).1 =
    Ok (TemplateResponse "schedule.html"
          [("user", VUser u); ("slots", VSlots (Db.clinic_slots s))]) ∧
  (serve verify_password today GET_research s cookie).1 =
    Ok (TemplateResponse "research.html"
          [("user", VUser u); ("items", VItems (Db.research_items s))]).
Proof. intros H. split; by resolved H. Qed.

(** X8: after a logged-in user's POST /services, the dashboard counts one
    procedure more than before and the same meetings, clinic slots and
    research items. *)
Theorem dashboard_counts_the_new_entry
    today today' s cookie u procedure_name notes :
  current_user s cookie = Ok (Some u) →
  let s' := db (serve verify_password today
                  (POST_services procedure_name notes) s cookie).2 in
  (serve verify_password today' GET_dashboard s' cookie).1 =
    Ok (TemplateResponse "dashboard.html"
          [ ("user", VUser u);
            ("stats", VStats
               [ ("meetings", Z.of_nat (length (Db.meetings s)));
                 ("clinics", Z.of_nat (length (Db.clinic_slots s)));
                 ("procedures", Z.of_nat (length (Db.service_entries s)) + 1);
                 ("research", Z.of_nat (length (Db.research_items s))) ]) ]).
Proof.
  intros H. cbv zeta.
  rewrite (add_service_as_user verify_password _ _ _ _ _ _ H). cbn.
  rewrite (dashboard_as_user verify_password today' _ cookie u)
    by by rewrite <- (current_user_same_users s).
  cbn [db Db.service_entries Db.meetings Db.clinic_slots Db.research_items].
  by rewrite length_app, Nat2Z.inj_add.
Qed.

(** X9: POST /services does not recognise a repeated submission: sending
    the same form twice stores two entries with the same owner, date,
    procedure name and notes. *)
Theorem add_service_twice_stores_two_entries
    today s cookie u procedure_name notes :
  current_user s cookie = Ok (Some u) →
  let s' := db (serve verify_password today
                  (POST_services procedure_name notes) s cookie).2 in
  let s'' := db (serve verify_password today
                   (POST_services procedure_name notes) s' cookie).2 in
  ∃ e1 e2,
    Db.service_entries s'' = Db.service_entries s ++ [e1; e2] ∧
    Forall (λ e, ServiceEntry.user_id e = User.id u ∧
                 ServiceEntry.date e = today ∧
                 ServiceEntry.procedure_name e = procedure_name ∧
                 ServiceEntry.notes e = notes) [e1; e2].
Proof.
  intros H. cbv zeta.
  rewrite (add_service_as_user verify_password _ _ _ _ _ _ H). cbn.
  rewrite (add_service_as_user verify_password _ _ _ u)
    by by rewrite <- (current_user_same_users s).
  cbn. eexists _, _. rewrite <- app_assoc. split; [done|].
  by repeat constructor.
Qed.

End Views.

(** ** Beyond the listed claims: what the seeding stores *)

(** Names the rows appended to a table one by one, so that the shape of the
    table can be reasoned about without them. *)
Ltac abstract_rows :=
  repeat match goal with
         | |- context [?l ++ [?x]] =>
             tryif is_var x then fail else (generalize x; intro)
         end.

(** Evaluates a table of a seeded store to [old ++ k] with [k] of known
    length; [A] is the type of its rows. *)
Ltac appended A :=
  vm_compute; fold (@Datatypes.app A); fold (@length A);
  abstract_rows; rewrite <- ?app_assoc; cbn [Datatypes.app];
  eexists; split; reflexivity.

Section SeededStore.

Variable get_password_hash : nat → string → string.
Variable rand : nat → nat.
Variable verify_password : string → string → Result bool.

Implicit Types (s : Db.Store) (cookie : gmap string string) (u : User.t).

(** On a store without users the seeding appends 7, 15, 75, 10, 8 and 5
    rows to the six tables. *)
Lemma seed_data_suffixes today ms ats cs es rs :
  let s' :=
    db (on_startup get_password_hash rand today (Db.mkStore [] ms ats cs es rs)).2 in
  (∃ k, Db.users s' = [] ++ k ∧ length k = 7%nat) ∧
  (∃ k, Db.meetings s' = ms ++ k ∧ length k = 15%nat) ∧
  (∃ k, Db.attendance s' = ats ++ k ∧ length k = 75%nat) ∧
  (∃ k, Db.clinic_slots s' = cs ++ k ∧ length k = 10%nat) ∧
  (∃ k, Db.service_entries s' = es ++ k ∧ length k = 8%nat) ∧
  (∃ k, Db.research_items s' = rs ++ k ∧ length k = 5%nat).
Proof.
  cbv zeta. split; [eexists; split; vm_compute; reflexivity|].
  split; [appended Meeting.t|]. split; [appended Attendance.t|].
  split; [appended ClinicSlot.t|]. split; [appended ServiceEntry.t|].
  appended ResearchItem.t.
Qed.

(** X10: on any store the seeding runs to its end without raising and
    never changes or removes a stored row: every table keeps its rows as a
    prefix.  When the user table is empty it appends 7 users, 15 meetings,
    75 attendance rows, 10 clinic slots, 8 service entries and 5 research
    items, whatever the other tables held. *)
Theorem seed_data_only_appends today s :
  let out := on_startup get_password_hash rand today s in
  out.1 = Ok tt ∧
  Db.users s `prefix_of` Db.users (db out.2) ∧
  Db.meetings s `prefix_of` Db.meetings (db out.2) ∧
  Db.attendance s `prefix_of` Db.attendance (db out.2) ∧
  Db.clinic_slots s `prefix_of` Db.clinic_slots (db out.2) ∧
  Db.service_entries s `prefix_of` Db.service_entries (db out.2) ∧
  Db.research_items s `prefix_of` Db.research_items (db out.2) ∧
  (Db.users s = [] →
   length (Db.users (db out.2)) = 7%nat ∧
   length (Db.meetings (db out.2)) = (length (Db.meetings s) + 15)%nat ∧
   length (Db.attendance (db out.2)) = (length (Db.attendance s) + 75)%nat ∧
   length (Db.clinic_slots (db out.2)) = (length (Db.clinic_slots s) + 10)%nat ∧
   length (Db.service_entries (db out.2)) = (length (Db.service_entries s) + 8)%nat ∧
   length (Db.research_items (db out.2)) = (length (Db.research_items s) + 5)%nat).
Proof.
  cbv zeta. destruct (decide (Db.users s = [])) as [He|Hne].
  - destruct (seed_data_fills_users get_password_hash rand today s He) as [Hok _].
    split; [exact Hok|]. clear Hok.
    destruct s as [us ms ats cs es rs]. cbn in He. subst us. cbn.
    destruct (seed_data_suffixes today ms ats cs es rs)
      as ((ku & -> & Hu) & (km & -> & Hm) & (ka & -> & Ha) & (kc & -> & Hc)
          & (ke & -> & He) & (kr & -> & Hr)).
    repeat (split; [by apply prefix_app_r|]).
    intros _. rewrite !length_app, Hu, Hm, Ha, Hc, He, Hr. done.
  - rewrite (seed_data_skips get_password_hash rand today s Hne). cbn.
    by repeat split.
Qed.

Lemma seeded_statuses today :
  Attendance.status <$>
    Db.attendance (db (on_startup get_password_hash rand today Db.empty).2) =
  (λ k, nth (rand k `mod` 3)%nat ["Present"; "Absent"; "Excused"] "Present")
    <$> seq 0 75.
Proof. vm_compute. reflexivity. Qed.

(** X11: seeding an empty store records attendance for every meeting and
    every doctor, meeting by meeting: the (meeting, user) pairs of the
    attendance table are the pairs of a stored meeting and a stored doctor,
    each once; and whatever the random generator yields, every status is
    Present, Absent or Excused. *)
Theorem seeded_attendance_pairs_meetings_and_doctors today :
  let s := db (on_startup get_password_hash rand today Db.empty).2 in
  (λ a, (Attendance.meeting_id a, Attendance.user_id a)) <$> Db.attendance s =
    (m ← Meeting.id <$> Db.meetings s;
     d ← User.id <$> filter (λ u, User.role u = "doctor") (Db.users s);
     [(m, d)]) ∧
  NoDup ((λ a, (Attendance.meeting_id a, Attendance.user_id a))
           <$> Db.attendance s) ∧
  Forall (λ a, Attendance.status a ∈ ["Present"; "Absent"; "Excused"])
    (Db.attendance s).
Proof.
  cbv zeta. split; [vm_compute; reflexivity|]. split.
  - apply (bool_decide_unpack _). vm_compute. exact I.
  - apply (Forall_fmap Attendance.status
             (λ x, x ∈ ["Present"; "Absent"; "Excused"])).
    rewrite seeded_statuses. apply Forall_fmap, Forall_forall.
    intros k _. cbv beta.
    apply list_elem_of_In, nth_In. cbn [length].
    apply Nat.mod_upper_bound. lia.
Qed.

(** Each seeded username is stored once, with the hash that one of the
    seven calls of the run returned for "pass". *)
Lemma seeded_user_by_name today username :
  username ∈ ["doctor1"; "doctor2"; "doctor3"; "doctor4"; "doctor5";
              "head"; "admin"] →
  ∃ u k,
    first_by_username username
      (Db.users (db (on_startup get_password_hash rand today Db.empty).2))
    = Some u ∧
    (k < 7)%nat ∧
    User.hashed_password u = get_password_hash k "pass".
Proof.
  intros H.
  repeat (apply elem_of_cons in H; destruct H as [->|H];
          [eexists _, _; split; [vm_compute; reflexivity|];
           split; [|reflexivity]; lia|]).
  by apply elem_of_nil in H.
Qed.

(** X12: when the verifier accepts "pass" against each of the seven hashes
    the seeding obtained for it, one per call and each with its own salt,
    every one of the seven seeded users logs in with "pass" on a freshly
    seeded store, and the dashboard then greets that user with the seeded
    totals. *)
Theorem seeded_user_logs_in_to_dashboard
    seed_day today today' cookie username :
  (∀ k, (k < 7)%nat →
        verify_password "pass" (get_password_hash k "pass") = Ok true) →
  username ∈ ["doctor1"; "doctor2"; "doctor3"; "doctor4"; "doctor5";
              "head"; "admin"] →
  let s := db (on_startup get_password_hash rand seed_day Db.empty).2 in
  let out := serve verify_password today (POST_login username "pass") s cookie in
  out.1 = Ok (RedirectResponse "/dashboard" HTTP_303_SEE_OTHER) ∧
  ∃ u,
    User.username u = username ∧
    (serve verify_password today' GET_dashboard (db out.2) (session out.2)).1 =
      Ok (TemplateResponse "dashboard.html"
            [ ("user", VUser u);
              ("stats", VStats [ ("meetings", 15); ("clinics", 10);
                                 ("procedures", 8); ("research", 5) ]) ]).
Proof.
  intros Hverify Hin. cbv zeta.
  assert (username ≠ "") as Hne.
  { intros ->. revert Hin. apply (bool_decide_unpack _). by vm_compute. }
  destruct (seeded_user_by_name seed_day username Hin) as (u & k & Hu & Hk & Hh).
  pose proof (Hverify k Hk) as Hv.
  destruct (seed_data_totals get_password_hash rand seed_day)
    as (_ & Hm & Hc & He & Hr).
  revert Hu Hm Hc He Hr.
  generalize (db (on_startup get_password_hash rand seed_day Db.empty).2).
  intros s Hu Hm Hc He Hr.
  destruct (first_by_username_elem _ _ _ Hu) as [_ Hname].
  rewrite <- Hh in Hv.
  rewrite (login_success_sets_session verify_password today s cookie
             username "pass" u Hu Hv).
  split; [done|]. exists u. split; [done|].
  cbn [snd db session]. rewrite Hname.
  rewrite (dashboard_as_user verify_password today' s _ u).
  - by rewrite Hm, Hc, He, Hr.
  - rewrite (current_user_named s _ username); [by rewrite Hu| |done].
    apply lookup_insert_eq.
Qed.

(** GET /meetings as a resolved user. *)
Lemma meetings_as_user today s cookie u :
  current_user s cookie = Ok (Some u) →
  (serve verify_password today GET_meetings s cookie).1 =
    Ok (TemplateResponse "meetings.html"
          [ ("user", VUser u);
            ("attendance",
             VAttendance
               (if decide (User.role u = "admin" ∨ User.role u = "head")
                then Db.attendance s
                else filter (λ a, Attendance.user_id a = User.id u)
                       (Db.attendance s))) ]).
Proof.
  intros H. unfold serve, app, meetings.
  unfold mbind at 1, M_bind at 1. rewrite (current_user_resolved _ _ _ H).
  by destruct (decide (User.role u = "admin" ∨ User.role u = "head")).
Qed.

(** The users a seeding of the empty store leaves. *)
Lemma seeded_users today :
  Db.users (db (on_startup get_password_hash rand today Db.empty).2) =
    [ User.mk 1 "doctor1" (get_password_hash 0 "pass") "Dr. Smith" "doctor";
      User.mk 2 "doctor2" (get_password_hash 1 "pass") "Dr. Jones" "doctor";
      User.mk 3 "doctor3" (get_password_hash 2 "pass") "Dr. Williams" "doctor";
      User.mk 4 "doctor4" (get_password_hash 3 "pass") "Dr. Brown" "doctor";
      User.mk 5 "doctor5" (get_password_hash 4 "pass") "Dr. Davis" "doctor";
      User.mk 6 "head" (get_password_hash 5 "pass") "Dr. Head" "head";
      User.mk 7 "admin" (get_password_hash 6 "pass") "Admin User" "admin" ].
Proof. vm_compute. reflexivity. Qed.

(** Each seeded doctor has one attendance row per seeded meeting. *)
Lemma seeded_rows_of_doctor today d :
  d ∈ [1; 2; 3; 4; 5] →
  let s := db (on_startup get_password_hash rand today Db.empty).2 in
  Attendance.meeting_id
    <$> filter (λ a, Attendance.user_id a = d) (Db.attendance s) =
  Meeting.id <$> Db.meetings s.
Proof.
  intros H. cbv zeta.
  repeat (apply elem_of_cons in H; destruct H as [->|H];
          [vm_compute; reflexivity|]).
  by apply elem_of_nil in H.
Qed.

(** X13: on a freshly seeded store GET /meetings shows a seeded doctor one
    attendance row for each of the meetings, in the order of the meetings
    and all the doctor's own, and shows the head and the admin the whole
    attendance table, whatever the random generator drew. *)
Theorem seeded_meetings_pages seed_day today cookie u :
  let s := db (on_startup get_password_hash rand seed_day Db.empty).2 in
  current_user s cookie = Ok (Some u) →
  ∃ rows,
    (serve verify_password today GET_meetings s cookie).1 =
      Ok (TemplateResponse "meetings.html"
            [("user", VUser u); ("attendance", VAttendance rows)]) ∧
    (User.role u = "doctor" →
     Attendance.meeting_id <$> rows = Meeting.id <$> Db.meetings s ∧
     Forall (λ a, Attendance.user_id a = User.id u) rows) ∧
    (User.role u ≠ "doctor" → rows = Db.attendance s).
Proof.
  cbv zeta.
  pose proof (seeded_users seed_day) as Hus.
  pose proof (seeded_rows_of_doctor seed_day) as Hrows.
  cbv zeta in Hus, Hrows. revert Hus Hrows.
  generalize (db (on_startup get_password_hash rand seed_day Db.empty).2).
  intros s Hus Hrows H.
  rewrite (meetings_as_user today s cookie u H).
  assert (u ∈ Db.users s) as Hin.
  { apply current_user_resolved in H.
    destruct (get_current_user_some _ _ _ H) as (name & _ & _ & Hu & _).
    by destruct (first_by_username_elem _ _ _ Hu). }
  clear H. rewrite Hus in Hin. clear Hus.
  eexists. split; [reflexivity|].
  repeat (apply elem_of_cons in Hin; destruct Hin as [->|Hin]);
    [..|by apply elem_of_nil in Hin]; cbn [User.role User.id];
    destruct (decide _) as [Hr|Hr].
  all: try (exfalso; destruct Hr as [Hr|Hr]; discriminate Hr).
  all: try (exfalso; apply Hr; (by left) || (by right)).
  all: split; [intros Hd|intros Hnd]; try discriminate Hd; try done.
  all: split; [apply Hrows; set_solver|].
  all: apply Forall_forall; intros a Ha.
  all: apply list_elem_of_filter in Ha; by destruct Ha.
Qed.

End SeededStore.

Section Resolution.

Implicit Types (s : Db.Store) (cookie : gmap string string) (u : User.t).

(** Among rows of distinct usernames, the lookup by username finds each row
    under its own name. *)
Lemma first_by_username_unique rows u :
  NoDup (User.username <$> rows) → u ∈ rows →
  first_by_username (User.username u) rows = Some u.
Proof.
  unfold first_by_username.
  induction rows as [|x rows IH]; intros Hnd Hin; [by apply elem_of_nil in Hin|].
  rewrite fmap_cons in Hnd. apply NoDup_cons in Hnd as [Hx Hnd].
  rewrite filter_cons. case_decide as Hname.
  - apply elem_of_cons in Hin as [->|Hin]; [done|].
    destruct Hx. rewrite Hname. by apply list_elem_of_fmap_2.
  - apply elem_of_cons in Hin as [->|Hin]; [done|]. by apply IH.
Qed.

(** X14: while usernames are distinct, as the schema demands, a request is
    taken to come from user [u] exactly when [u] is a stored row and the
    session's user entry is [u]'s username, and that username is not
    empty. *)
Theorem current_user_is_the_named_row s cookie u :
  NoDup (User.username <$> Db.users s) →
  current_user s cookie = Ok (Some u) ↔
  u ∈ Db.users s ∧ cookie !! "user" = Some (User.username u) ∧
  User.username u ≠ "".
Proof.
  intros Hnd. split.
  - intros H. unfold current_user in H.
    destruct (get_current_user (open_session s cookie)) as [r st'] eqn:E.
    cbn in H. subst r.
    destruct (get_current_user_some _ _ _ E) as (name & Hc & Hne & Hu & _).
    destruct (first_by_username_elem _ _ _ Hu) as [Hin <-]. done.
  - intros (Hin & Hc & Hne).
    rewrite (current_user_named s cookie (User.username u) Hc Hne).
    by rewrite first_by_username_unique.
Qed.

End Resolution.

(** ** The further properties at the sample data *)

(** X2 at the seeded store, for doctor1 reading the services page. *)
Lemma session_changed_only_by_login_logout_witness :
  (∀ username password, GET_services ≠ POST_login username password) ∧
  GET_services ≠ GET_logout ∧
  session (serve Sample.verify Sample.today GET_services Sample.seeded
             (Sample.cookie "doctor1")).2 = Sample.cookie "doctor1".
Proof.
  assert (∀ username password, GET_services ≠ POST_login username password)
    as H1 by discriminate.
  assert (GET_services ≠ GET_logout) as H2 by discriminate.
  split; [exact H1|]. split; [exact H2|].
  exact (session_changed_only_by_login_logout Sample.verify Sample.today
           GET_services Sample.seeded (Sample.cookie "doctor1") H1 H2).
Defined.

(** X3 at the seeded store, for a session whose user entry is empty. *)
Lemma empty_username_is_no_session_witness :
  protected GET_research = true ∧
  Sample.cookie "" !! "user" = Some "" ∧
  serve Sample.verify Sample.today GET_research Sample.seeded (Sample.cookie "") =
    (Ok (redirect "/login"), open_session Sample.seeded (Sample.cookie "")).
Proof.
  assert (Sample.cookie "" !! "user" = Some "") as Hc
    by apply lookup_singleton_eq.
  split; [reflexivity|]. split; [exact Hc|].
  exact (empty_username_is_no_session Sample.verify Sample.today GET_research
           Sample.seeded (Sample.cookie "") eq_refl Hc).
Defined.

(** X5 at the seeded store, for doctor1 and the seeded password. *)
Lemma login_then_authenticated_witness :
  first_by_username "doctor1" (Db.users Sample.seeded) = Some Sample.doctor1 ∧
  Sample.verify "pass" (User.hashed_password Sample.doctor1) = Ok true ∧
  "doctor1" ≠ "" ∧
  let out := serve Sample.verify Sample.today (POST_login "doctor1" "pass")
               Sample.seeded ∅ in
  out.1 = Ok (RedirectResponse "/dashboard" HTTP_303_SEE_OTHER) ∧
  db out.2 = Sample.seeded ∧
  session out.2 = <["user" := "doctor1"]> ∅ ∧
  current_user (db out.2) (session out.2) = Ok (Some Sample.doctor1).
Proof.
  assert (first_by_username "doctor1" (Db.users Sample.seeded)
          = Some Sample.doctor1) as H1 by (vm_compute; reflexivity).
  assert (Sample.verify "pass" (User.hashed_password Sample.doctor1) = Ok true)
    as H2 by (vm_compute; reflexivity).
  assert ("doctor1" ≠ "") as H3 by discriminate.
  split; [exact H1|]. split; [exact H2|]. split; [exact H3|].
  exact (login_then_authenticated Sample.verify Sample.today Sample.seeded ∅
           "doctor1" "pass" Sample.doctor1 H1 H2 H3).
Defined.

(** X6 at the seeded store, for doctor1 starting without a session. *)
Lemma login_logout_round_trip_witness :
  first_by_username "doctor1" (Db.users Sample.seeded) = Some Sample.doctor1 ∧
  Sample.verify "pass" (User.hashed_password Sample.doctor1) = Ok true ∧
  let logged_in :=
    serve Sample.verify Sample.today (POST_login "doctor1" "pass")
      Sample.seeded ∅ in
  let logged_out :=
    serve Sample.verify Sample.today GET_logout (db logged_in.2)
      (session logged_in.2) in
  session logged_out.2 = delete "user" ∅ ∧
  db logged_out.2 = Sample.seeded ∧
  ((∅ : gmap string string) !! "user" = None → session logged_out.2 = ∅).
Proof.
  assert (first_by_username "doctor1" (Db.users Sample.seeded)
          = Some Sample.doctor1) as H1 by (vm_compute; reflexivity).
  assert (Sample.verify "pass" (User.hashed_password Sample.doctor1) = Ok true)
    as H2 by (vm_compute; reflexivity).
  split; [exact H1|]. split; [exact H2|].
  exact (login_logout_round_trip Sample.verify Sample.today Sample.today
           Sample.seeded ∅ "doctor1" "pass" Sample.doctor1 H1 H2).
Defined.

(** X7 at the seeded store, for doctor1. *)
Lemma schedule_and_research_show_all_rows_witness :
  current_user Sample.seeded (Sample.cookie "doctor1") = Ok (Some Sample.doctor1) ∧
  (serve Sample.verify Sample.today GET_schedule Sample.seeded
     (Sample.cookie "doctor1")).1 =
    Ok (TemplateResponse "schedule.html"
          [ ("user", VUser Sample.doctor1);
            ("slots", VSlots (Db.clinic_slots Sample.seeded)) ]) ∧
  (serve Sample.verify Sample.today GET_research Sample.seeded
     (Sample.cookie "doctor1")).1 =
    Ok (TemplateResponse "research.html"
          [ ("user", VUser Sample.doctor1);
            ("items", VItems (Db.research_items Sample.seeded)) ]).
Proof.
  assert (current_user Sample.seeded (Sample.cookie "doctor1")
          = Ok (Some Sample.doctor1)) as H by (vm_compute; reflexivity).
  split; [exact H|].
  exact (schedule_and_research_show_all_rows Sample.verify Sample.today
           Sample.seeded (Sample.cookie "doctor1") Sample.doctor1 H).
Defined.

(** X8 at the seeded store, for doctor1. *)
Lemma dashboard_counts_the_new_entry_witness :
  current_user Sample.seeded (Sample.cookie "doctor1") = Ok (Some Sample.doctor1) ∧
  let s' := db (serve Sample.verify Sample.today (POST_services "X" "Y")
                  Sample.seeded (Sample.cookie "doctor1")).2 in
  (serve Sample.verify Sample.today GET_dashboard s' (Sample.cookie "doctor1")).1 =
    Ok (TemplateResponse "dashboard.html"
          [ ("user", VUser Sample.doctor1);
            ("stats", VStats
               [ ("meetings", Z.of_nat (length (Db.meetings Sample.seeded)));
                 ("clinics", Z.of_nat (length (Db.clinic_slots Sample.seeded)));
                 ("procedures",
                  Z.of_nat (length (Db.service_entries Sample.seeded)) + 1);
                 ("research",
                  Z.of_nat (length (Db.research_items Sample.seeded))) ]) ]).
Proof.
  assert (current_user Sample.seeded (Sample.cookie "doctor1")
          = Ok (Some Sample.doctor1)) as H by (vm_compute; reflexivity).
  split; [exact H|].
  exact (dashboard_counts_the_new_entry Sample.verify Sample.today Sample.today
           Sample.seeded (Sample.cookie "doctor1") Sample.doctor1 "X" "Y" H).
Defined.

(** X9 at the seeded store, for doctor1. *)
Lemma add_service_twice_stores_two_entries_witness :
  current_user Sample.seeded (Sample.cookie "doctor1") = Ok (Some Sample.doctor1) ∧
  let s' := db (serve Sample.verify Sample.today (POST_services "X" "Y")
                  Sample.seeded (Sample.cookie "doctor1")).2 in
  let s'' := db (serve Sample.verify Sample.today (POST_services "X" "Y")
                   s' (Sample.cookie "doctor1")).2 in
  ∃ e1 e2,
    Db.service_entries s'' = Db.service_entries Sample.seeded ++ [e1; e2] ∧
    Forall (λ e, ServiceEntry.user_id e = User.id Sample.doctor1 ∧
                 ServiceEntry.date e = Sample.today ∧
                 ServiceEntry.procedure_name e = "X" ∧
                 ServiceEntry.notes e = "Y") [e1; e2].
Proof.
  assert (current_user Sample.seeded (Sample.cookie "doctor1")
          = Ok (Some Sample.doctor1)) as H by (vm_compute; reflexivity).
  split; [exact H|].
  exact (add_service_twice_stores_two_entries Sample.verify Sample.today
           Sample.seeded (Sample.cookie "doctor1") Sample.doctor1 "X" "Y" H).
Defined.

(** X12 for the head of department. *)
Lemma seeded_user_logs_in_to_dashboard_witness :
  (∀ k, (k < 7)%nat → Sample.verify "pass" (Sample.hash k "pass") = Ok true) ∧
  "head" ∈ ["doctor1"; "doctor2"; "doctor3"; "doctor4"; "doctor5";
            "head"; "admin"] ∧
  let s := db (on_startup Sample.hash Sample.rand Sample.today Db.empty).2 in
  let out := serve Sample.verify Sample.today (POST_login "head" "pass") s ∅ in
  out.1 = Ok (RedirectResponse "/dashboard" HTTP_303_SEE_OTHER) ∧
  ∃ u,
    User.username u = "head" ∧
    (serve Sample.verify Sample.today GET_dashboard (db out.2) (session out.2)).1 =
      Ok (TemplateResponse "dashboard.html"
            [ ("user", VUser u);
              ("stats", VStats [ ("meetings", 15); ("clinics", 10);
                                 ("procedures", 8); ("research", 5) ]) ]).
Proof.
  assert (∀ k, (k < 7)%nat →
               Sample.verify "pass" (Sample.hash k "pass") = Ok true) as Hv.
  { intros k Hk. do 7 (destruct k as [|k]; [vm_compute; reflexivity|]). lia. }
  assert ("head" ∈ ["doctor1"; "doctor2"; "doctor3"; "doctor4"; "doctor5";
                    "head"; "admin"]) as Hin.
  { apply (bool_decide_unpack _). vm_compute. exact I. }
  split; [exact Hv|]. split; [exact Hin|].
  exact (seeded_user_logs_in_to_dashboard Sample.hash Sample.rand Sample.verify
           Sample.today Sample.today Sample.today ∅ "head" Hv Hin).
Defined.

(** X13 for doctor1. *)
Lemma seeded_meetings_pages_witness :
  let s := db (on_startup Sample.hash Sample.rand Sample.today Db.empty).2 in
  current_user s (Sample.cookie "doctor1") = Ok (Some Sample.doctor1) ∧
  ∃ rows,
    (serve Sample.verify Sample.today GET_meetings s (Sample.cookie "doctor1")).1 =
      Ok (TemplateResponse "meetings.html"
            [("user", VUser Sample.doctor1); ("attendance", VAttendance rows)]) ∧
    Attendance.meeting_id <$> rows = Meeting.id <$> Db.meetings s.
Proof.
  cbv zeta.
  assert (current_user
            (db (on_startup Sample.hash Sample.rand Sample.today Db.empty).2)
            (Sample.cookie "doctor1")
          = Ok (Some Sample.doctor1)) as H by (vm_compute; reflexivity).
  split; [exact H|].
  destruct (seeded_meetings_pages Sample.hash Sample.rand Sample.verify
              Sample.today Sample.today (Sample.cookie "doctor1")
              Sample.doctor1 H) as (rows & Hresp & Hdoctor & _).
  exists rows. split; [exact Hresp|].
  exact (proj1 (Hdoctor eq_refl)).
Defined.

(** X14 at the seeded store, for doctor1. *)
Lemma current_user_is_the_named_row_witness :
  NoDup (User.username <$> Db.users Sample.seeded) ∧
  (current_user Sample.seeded (Sample.cookie "doctor1") = Ok (Some Sample.doctor1) ↔
   Sample.doctor1 ∈ Db.users Sample.seeded ∧
   Sample.cookie "doctor1" !! "user" = Some (User.username Sample.doctor1) ∧
   User.username Sample.doctor1 ≠ "").
Proof.
  assert (NoDup (User.username <$> Db.users Sample.seeded)) as H.
  { apply (bool_decide_unpack _). vm_compute. exact I. }
  split; [exact H|].
  exact (current_user_is_the_named_row Sample.seeded (Sample.cookie "doctor1")
           Sample.doctor1 H).
Defined.
